(** * The product manager of slick-review-backend

    A shallow embedding of [src/product/manager/product.js] (class
    [ProductManager]) and the properties of its four operations:
    [validateAddReviewRequest], [getAll], [findById] and [addRating].

    The manager is orchestration code: it calls the persistence entities
    and the realtime queue in sequence and propagates their rejections.
    The embedding therefore threads an explicit state through every
    awaited call: the state of the outside world (database, queue) and the
    trace of collaborator calls made so far, each with its outcome. *)

From stdpp Require Import gmap strings list fin_maps.
From Stdlib Require Import ZArith Ascii.

Set Warnings "-register-all".
Local Open Scope Z_scope.

(** ** JavaScript values *)

(** The values the manager passes around.  Numbers are modelled by their
    integer values; objects are finite maps from property names. *)
Inductive JSValue : Type :=
| JUndefined
| JNull
| JBool (b : bool)
| JNum (n : Z)
| JStr (s : string)
| JArr (items : list JSValue)
| JObj (props : gmap string JSValue).

Abbreviation JSObject := (gmap string JSValue).

(** [o[key]]: reading a property that is absent yields [undefined]. *)
Definition get_prop (o : JSObject) (key : string) : JSValue :=
  default JUndefined (o !! key).

(** ** Joi *)

(** Modelled from the spec: the validation library [joi] and the schema
    module [src/product/schema/review.js] are not part of the sources.  The
    spec describes the schema as a declarative validator for the shape
    [{product_id, rating, review}] and the call as one validation run that,
    with [abortEarly: false], collects every field error.  [Joi.validate]
    below is that run for an object schema given key by key: each key has
    a rule that inspects the field and answers with its error details and
    the validated (possibly normalized) field value; keys of the data that
    the schema does not know are errors as well.  The message text and the
    stack of the error object are not modelled. *)
Module Joi.

Record RuleResult : Type := {
  errors : list JSValue;
  normalized : JSValue
}.

Definition Rule : Type := JSValue -> RuleResult.

(** An object schema: its keys, each once, in declaration order. *)
Definition Schema : Type := list (string * Rule).

Record Options : Type := { abortEarly : bool }.

Record Result : Type := {
  error : option JSObject;
  value : JSValue
}.

(** One entry of [error.details]. *)
Definition detail (type key : string) : JSValue :=
  JObj (<["type" := JStr type]> (<["path" := JArr [JStr key]]> ∅)).

Definition pass (v : JSValue) : RuleResult :=
  {| errors := []; normalized := v |}.

Definition fail (type key : string) (v : JSValue) : RuleResult :=
  {| errors := [detail type key]; normalized := v |}.

(** Storing a validated field into the result object: a field validated
    to [undefined] is dropped, unless it was [undefined] before. *)
Definition assign_key (key : string) (item result : JSValue)
    (target : JSObject) : JSObject :=
  match result with
  | JUndefined =>
      match item with
      | JUndefined => target
      | _ => delete key target
      end
  | _ => <[key := result]> target
  end.

(** The pass over the keys of the schema.  With [abortEarly] the run
    stops at the first error; without it the run goes on and every
    error is kept. *)
Fixpoint validate_keys (abort : bool) (keys : Schema) (data target : JSObject)
    : list JSValue * JSObject * bool :=
  match keys with
  | [] => ([], target, false)
  | (key, rule) :: rest =>
      let item := get_prop data key in
      let r := rule item in
      match errors r with
      | [] => validate_keys abort rest data
                (assign_key key item (normalized r) target)
      | e :: es =>
          if abort then ([e], target, true)
          else
            let '(errs, target', stopped) :=
              validate_keys abort rest data target in
            ((e :: es) ++ errs, target', stopped)
      end
  end.

Definition known (keys : Schema) (key : string) : bool :=
  bool_decide (key ∈ keys.*1).

(** The keys of the data that the schema does not declare. *)
Definition unknown_keys (keys : Schema) (data : JSObject) : list string :=
  filter (fun key => known keys key = false) (map_to_list data).*1.

Definition unknown_errors (abort : bool) (keys : Schema) (data : JSObject)
    : list JSValue :=
  let errs := (detail "object.allowUnknown") <$> unknown_keys keys data in
  if abort then take 1 errs else errs.

Definition ValidationError (details : list JSValue) (data : JSObject)
    : JSObject :=
  <["isJoi" := JBool true]>
    (<["name" := JStr "ValidationError"]>
      (<["details" := JArr details]>
        (<["_object" := JObj data]> ∅))).

(** [Joi.validate(data, schema, options)], returning [{error, value}]. *)
Definition validate (data : JSObject) (schema : Schema) (options : Options)
    : Result :=
  let '(errs, target, stopped) :=
    validate_keys (abortEarly options) schema data data in
  let errs :=
    if stopped then errs
    else errs ++ unknown_errors (abortEarly options) schema data in
  {| error := match errs with
              | [] => None
              | _ :: _ => Some (ValidationError errs data)
              end;
     value := JObj target |}.

(** What a schema finds wrong with an object, field by field: the errors
    of every declared key, then those of the undeclared keys. *)
Definition violations (schema : Schema) (data : JSObject) : list JSValue :=
  concat ((fun kr => errors (kr.2 (get_prop data kr.1))) <$> schema)
  ++ ((detail "object.allowUnknown") <$> unknown_keys schema data).

(** The conversion that a number rule applies by default: a string that
    spells a number is validated as that number.  With numbers modelled
    by integers, the spellings are an optional sign and decimal digits;
    fractions, exponents and surrounding blanks are not modelled and
    count as no number. *)
Fixpoint decimal (s : string) (acc : Z) : option Z :=
  match s with
  | EmptyString => Some acc
  | String c rest =>
      let d := Z.of_nat (Ascii.nat_of_ascii c) - 48 in
      if (0 <=? d) && (d <=? 9) then decimal rest (10 * acc + d) else None
  end.

Definition number_of_string (s : string) : option Z :=
  match s with
  | EmptyString => None
  | String c rest =>
      if Ascii.eqb c "-"%char then
        match rest with
        | EmptyString => None
        | _ => Z.opp <$> decimal rest 0
        end
      else if Ascii.eqb c "+"%char then
        match rest with
        | EmptyString => None
        | _ => decimal rest 0
        end
      else decimal s 0
  end.

(** The number a field stands for under a number rule, if any. *)
Definition to_number (item : JSValue) : option Z :=
  match item with
  | JNum n => Some n
  | JStr s => number_of_string s
  | _ => None
  end.


End Joi.

(** Modelled from the spec: the review schema
    ([src/product/schema/review.js], not part of the sources).  The spec
    gives its shape as [{product_id: number, rating: number, review:
    string}], every field required, [rating] within an allowed range and
    [review] a non-empty text.  The spec does not give the range, so its
    bounds [lo] and [hi] are parameters.  The manager passes no option
    but [abortEarly], which leaves the conversion of the validator at its
    default, and the spec calls the result the validated/normalized
    value: a number rule accepts a number, or a string that spells one,
    and validates it to that number; the range is checked on the
    number. *)
Module ReviewSchema.

Definition product_id_rule : Joi.Rule := fun item =>
  match item with
  | JUndefined => Joi.fail "any.required" "product_id" item
  | _ =>
      match Joi.to_number item with
      | Some n => Joi.pass (JNum n)
      | None => Joi.fail "number.base" "product_id" item
      end
  end.

Definition rating_rule (lo hi : Z) : Joi.Rule := fun item =>
  match item with
  | JUndefined => Joi.fail "any.required" "rating" item
  | _ =>
      match Joi.to_number item with
      | Some n =>
          if n <? lo then Joi.fail "number.min" "rating" (JNum n)
          else if hi <? n then Joi.fail "number.max" "rating" (JNum n)
          else Joi.pass (JNum n)
      | None => Joi.fail "number.base" "rating" item
      end
  end.

Definition review_rule : Joi.Rule := fun item =>
  match item with
  | JUndefined => Joi.fail "any.required" "review" item
  | JStr EmptyString => Joi.fail "any.empty" "review" item
  | JStr _ => Joi.pass item
  | _ => Joi.fail "string.base" "review" item
  end.

Definition addReviewRequestSchema (lo hi : Z) : Joi.Schema :=
  [ ("product_id", product_id_rule);
    ("rating", rating_rule lo hi);
    ("review", review_rule) ].

End ReviewSchema.

(** ** Promises, collaborators and the call trace *)

(** How an awaited call ends: the promise resolves with a value, or it
    rejects (or the call throws) with an error value. *)
Inductive Outcome (A : Type) : Type :=
| Resolved (a : A)
| Rejected (e : JSValue).
Arguments Resolved {A} a.
Arguments Rejected {A} e.

Definition outcome_map {A B : Type} (f : A -> B) (o : Outcome A) : Outcome B :=
  match o with
  | Resolved a => Resolved (f a)
  | Rejected e => Rejected e
  end.

(** The calls the manager makes on its collaborators.  An entity is built
    from the request of the manager ([new ProductEntity(this.request)]);
    the call records that request. *)
Inductive Call : Type :=
| ProductEntity_getAll (request : JSValue)
| ProductEntity_findById (request id : JSValue)
| ProductRatingEntity_getAllByProductId (request productId : JSValue)
| ProductRatingEntity_create (request productId rating review : JSValue)
| ProductRatingEntity_findById (request id : JSValue)
| realtimeQueue_create (event payload : JSValue)
| Job_save (job : JSValue).

Record Event : Type := { call : Call; outcome : Outcome JSValue }.

(** The collaborators, as the spec lists their contracts: each call acts
    on the outside world and resolves or rejects.  A product lookup that
    resolves yields a product record, an object. *)
Record Collaborators (World : Type) : Type := {
  productEntity_getAll :
    JSValue -> World -> Outcome JSValue * World;
  productEntity_findById :
    JSValue -> JSValue -> World -> Outcome JSObject * World;
  productRatingEntity_getAllByProductId :
    JSValue -> JSValue -> World -> Outcome JSValue * World;
  productRatingEntity_create :
    JSValue -> JSValue -> JSValue -> JSValue -> World -> Outcome JSValue * World;
  productRatingEntity_findById :
    JSValue -> JSValue -> World -> Outcome JSValue * World;
  queue_create :
    JSValue -> JSValue -> World -> Outcome JSValue * World;
  job_save :
    JSValue -> World -> Outcome JSValue * World
}.
Arguments productEntity_getAll {World} _ _ _.
Arguments productEntity_findById {World} _ _ _ _.
Arguments productRatingEntity_getAllByProductId {World} _ _ _ _.
Arguments productRatingEntity_create {World} _ _ _ _ _ _.
Arguments productRatingEntity_findById {World} _ _ _ _.
Arguments queue_create {World} _ _ _ _.
Arguments job_save {World} _ _ _.

Record State (World : Type) : Type := {
  world : World;
  trace : list Event
}.
Arguments world {World} _.
Arguments trace {World} _.
Arguments Build_State {World} _ _.

(** An asynchronous computation: from the state before to its outcome and
    the state after.  A rejection keeps the state reached so far. *)
Definition Async (World A : Type) : Type :=
  State World -> Outcome A * State World.

Section Async.
Context {World : Type}.

Definition resolve {A : Type} (a : A) : Async World A :=
  fun st => (Resolved a, st).

Definition reject {A : Type} (e : JSValue) : Async World A :=
  fun st => (Rejected e, st).

(** [x = await m; k x] *)
Definition await {A B : Type} (m : Async World A) (k : A -> Async World B)
    : Async World B :=
  fun st =>
    match m st with
    | (Resolved a, st') => k a st'
    | (Rejected e, st') => (Rejected e, st')
    end.

(** [try { m } catch (error) { handler error }] *)
Definition try_catch {A : Type} (m : Async World A)
    (handler : JSValue -> Async World A) : Async World A :=
  fun st =>
    match m st with
    | (Resolved a, st') => (Resolved a, st')
    | (Rejected e, st') => handler e st'
    end.

(** A call on a collaborator: it acts on the world, and the call and its
    outcome are appended to the trace. *)
Definition invoke {A : Type} (c : Call) (to_js : A -> JSValue)
    (run : World -> Outcome A * World) : Async World A :=
  fun st =>
    let '(o, w) := run (world st) in
    (o, {| world := w;
           trace := trace st ++ [{| call := c; outcome := outcome_map to_js o |}] |}).

End Async.

Declare Scope async_scope.
Delimit Scope async_scope with async.
Notation "x <- m ;; k" := (await m (fun x => k))
  (at level 100, m at next level, right associativity) : async_scope.
Notation "'try' m 'catch' h" := (try_catch m h)
  (at level 10, m at level 200, h at level 9) : async_scope.

(** ** The product manager *)

Record ProductManager : Type := { request : JSValue }.

Section Manager.
Context {World : Type}.
Variable env : Collaborators World.
Variable addReviewRequestSchema : Joi.Schema.

Local Open Scope async_scope.

(** Lines 32-43. *)
Definition validateAddReviewRequest (data : JSObject) : Async World JSValue :=
  let r := Joi.validate data addReviewRequestSchema {| Joi.abortEarly := false |} in
  match Joi.error r with
  | Some error => reject (JObj (<["badRequest" := JBool true]> error))
  | None => resolve (Joi.value r)
  end.

(** Lines 51-60. *)
Definition getAll (this : ProductManager) : Async World JSValue :=
  try (
    let productEntity := request this in
    products <- invoke (ProductEntity_getAll productEntity) (fun v => v)
                  (productEntity_getAll env productEntity) ;;
    resolve products
  ) catch (fun error => reject error).

(** Lines 69-81. *)
Definition findById (this : ProductManager) (id : JSValue)
    : Async World JSValue :=
  try (
    let productEntity := request this in
    let productRatingEntity := request this in
    product <- invoke (ProductEntity_findById productEntity id) JObj
                 (productEntity_findById env productEntity id) ;;
    ratings <- invoke (ProductRatingEntity_getAllByProductId productRatingEntity id)
                 (fun v => v)
                 (productRatingEntity_getAllByProductId env productRatingEntity id) ;;
    resolve (JObj (<["ratings" := ratings]> product))
  ) catch (fun error => reject error).

(** Lines 91-93. *)
Definition publishToRealtimeQueue (event payload : JSValue)
    : Async World JSValue :=
  job <- invoke (realtimeQueue_create event payload) (fun v => v)
           (queue_create env event payload) ;;
  _ <- invoke (Job_save job) (fun v => v) (job_save env job) ;;
  resolve JUndefined.

(** The object literal of lines 106-110. *)
Definition review_request (productId rating review : JSValue) : JSObject :=
  <["review" := review]>
    (<["rating" := rating]>
      (<["product_id" := productId]> ∅)).

(** The payload of lines 117-120. *)
Definition rating_added (createdRating productId : JSValue) : JSValue :=
  JObj (<["product_id" := productId]> (<["rating" := createdRating]> ∅)).

(** Lines 104-126. *)
Definition addRating (this : ProductManager) (productId rating review : JSValue)
    : Async World JSValue :=
  try (
    _ <- validateAddReviewRequest (review_request productId rating review) ;;
    let productRatingEntity := request this in
    createdRatingId <-
      invoke (ProductRatingEntity_create productRatingEntity productId rating review)
        (fun v => v)
        (productRatingEntity_create env productRatingEntity productId rating review) ;;
    createdRating <-
      invoke (ProductRatingEntity_findById productRatingEntity createdRatingId)
        (fun v => v)
        (productRatingEntity_findById env productRatingEntity createdRatingId) ;;
    _ <- publishToRealtimeQueue (JStr "product-rating:added")
           (rating_added createdRating productId) ;;
    resolve createdRating
  ) catch (fun error => reject error).

(** Lines 112-122 on their own: what [addRating] runs once the
    validation has resolved. *)
Definition persist_and_publish (this : ProductManager)
    (productId rating review : JSValue) : Async World JSValue :=
  let productRatingEntity := request this in
  createdRatingId <-
    invoke (ProductRatingEntity_create productRatingEntity productId rating review)
      (fun v => v)
      (productRatingEntity_create env productRatingEntity productId rating review) ;;
  createdRating <-
    invoke (ProductRatingEntity_findById productRatingEntity createdRatingId)
      (fun v => v)
      (productRatingEntity_findById env productRatingEntity createdRatingId) ;;
  _ <- publishToRealtimeQueue (JStr "product-rating:added")
         (rating_added createdRating productId) ;;
  resolve createdRating.

End Manager.

(** ** Reading a trace *)

Definition is_queue_call (c : Call) : bool :=
  match c with
  | realtimeQueue_create _ _ | Job_save _ => true
  | _ => false
  end.

Definition is_persistence_call (c : Call) : bool := negb (is_queue_call c).

(** How often a kind of call occurs in a trace. *)
Definition count_calls (kind : Call -> bool) (t : list Event) : nat :=
  length (List.filter (fun e => kind (call e)) t).

Definition is_rating_create (c : Call) : bool :=
  match c with ProductRatingEntity_create _ _ _ _ => true | _ => false end.

Definition is_rating_findById (c : Call) : bool :=
  match c with ProductRatingEntity_findById _ _ => true | _ => false end.

Definition is_queue_create (c : Call) : bool :=
  match c with realtimeQueue_create _ _ => true | _ => false end.

Definition is_ratings_lookup (c : Call) : bool :=
  match c with ProductRatingEntity_getAllByProductId _ _ => true | _ => false end.

(** Lines 22-24: [new ProductManager(request)]. *)
Definition new_ProductManager (request : JSValue) : ProductManager :=
  {| request := request |}.

(** The method a call is a call of. *)
Inductive Method : Type :=
| M_ProductEntity_getAll
| M_ProductEntity_findById
| M_ProductRatingEntity_getAllByProductId
| M_ProductRatingEntity_create
| M_ProductRatingEntity_findById
| M_realtimeQueue_create
| M_Job_save.

Definition method (c : Call) : Method :=
  match c with
  | ProductEntity_getAll _ => M_ProductEntity_getAll
  | ProductEntity_findById _ _ => M_ProductEntity_findById
  | ProductRatingEntity_getAllByProductId _ _ =>
      M_ProductRatingEntity_getAllByProductId
  | ProductRatingEntity_create _ _ _ _ => M_ProductRatingEntity_create
  | ProductRatingEntity_findById _ _ => M_ProductRatingEntity_findById
  | realtimeQueue_create _ _ => M_realtimeQueue_create
  | Job_save _ => M_Job_save
  end.

Definition methods (t : list Event) : list Method :=
  (fun ev => method (call ev)) <$> t.

(** The request an entity was built with; the queue is not built from
    one. *)
Definition entity_request (c : Call) : option JSValue :=
  match c with
  | ProductEntity_getAll r
  | ProductEntity_findById r _
  | ProductRatingEntity_getAllByProductId r _
  | ProductRatingEntity_create r _ _ _
  | ProductRatingEntity_findById r _ => Some r
  | realtimeQueue_create _ _ | Job_save _ => None
  end.

Definition is_job_save (c : Call) : bool :=
  match c with Job_save _ => true | _ => false end.

Definition is_product_entity_call (c : Call) : bool :=
  match c with
  | ProductEntity_getAll _ | ProductEntity_findById _ _ => true
  | _ => false
  end.

Definition is_resolved {A : Type} (o : Outcome A) : bool :=
  match o with Resolved _ => true | Rejected _ => false end.

(** The calls of [addRating] (lines 113, 115 and 92) and of [findById]
    (lines 73 and 75), in the order of the source. *)
Definition addRating_pipeline : list Method :=
  [ M_ProductRatingEntity_create; M_ProductRatingEntity_findById;
    M_realtimeQueue_create; M_Job_save ].

Definition findById_pipeline : list Method :=
  [ M_ProductEntity_findById; M_ProductRatingEntity_getAllByProductId ].

(** ** Collaborators to run the manager on *)

(** An in-memory database and queue, each of which can be down. *)
Module TestDouble.

Record World : Type := {
  products : list JSObject;
  ratings : list JSObject;
  jobs : list JSValue;
  database_up : bool;
  queue_up : bool
}.

Definition failure (name : string) : JSValue :=
  JObj (<["name" := JStr name]> ∅).

Definition same_id (a b : JSValue) : bool :=
  match a, b with
  | JNum x, JNum y => x =? y
  | _, _ => false
  end.

Definition has_id (id : JSValue) (record : JSObject) : bool :=
  same_id (get_prop record "id") id.

Definition of_product (productId : JSValue) (record : JSObject) : bool :=
  same_id (get_prop record "product_id") productId.

Definition listProducts (request : JSValue) (w : World)
    : Outcome JSValue * World :=
  if database_up w then (Resolved (JArr (JObj <$> products w)), w)
  else (Rejected (failure "PersistenceError"), w).

Definition find_in (records : list JSObject) (id : JSValue) (w : World)
    : Outcome JSObject * World :=
  if database_up w then
    match List.find (has_id id) records with
    | Some record => (Resolved record, w)
    | None => (Rejected (failure "NotFoundError"), w)
    end
  else (Rejected (failure "PersistenceError"), w).

Definition findProduct (request id : JSValue) (w : World)
    : Outcome JSObject * World :=
  find_in (products w) id w.

Definition getAllByProductId (request productId : JSValue) (w : World)
    : Outcome JSValue * World :=
  if database_up w then
    (Resolved (JArr (JObj <$> List.filter (of_product productId) (ratings w))), w)
  else (Rejected (failure "PersistenceError"), w).

Definition new_rating (id productId rating review : JSValue) : JSObject :=
  <["id" := id]>
    (<["product_id" := productId]>
      (<["rating" := rating]>
        (<["review" := review]>
          (<["created_at" := JStr "2018-06-01T12:00:00Z"]> ∅)))).

Definition create (request productId rating review : JSValue) (w : World)
    : Outcome JSValue * World :=
  if database_up w then
    let id := JNum (Z.of_nat (length (ratings w)) + 1) in
    (Resolved id,
     {| products := products w;
        ratings := ratings w ++ [new_rating id productId rating review];
        jobs := jobs w;
        database_up := database_up w;
        queue_up := queue_up w |})
  else (Rejected (failure "PersistenceError"), w).

Definition findRating (request id : JSValue) (w : World)
    : Outcome JSValue * World :=
  let '(o, w') := find_in (ratings w) id w in (outcome_map JObj o, w').

Definition queueCreate (event payload : JSValue) (w : World)
    : Outcome JSValue * World :=
  (Resolved (JObj (<["type" := event]> (<["data" := payload]> ∅))), w).

Definition save (job : JSValue) (w : World) : Outcome JSValue * World :=
  if queue_up w then
    (Resolved job,
     {| products := products w;
        ratings := ratings w;
        jobs := jobs w ++ [job];
        database_up := database_up w;
        queue_up := queue_up w |})
  else (Rejected (failure "QueueError"), w).

Definition env : Collaborators World := {|
  productEntity_getAll := listProducts;
  productEntity_findById := findProduct;
  productRatingEntity_getAllByProductId := getAllByProductId;
  productRatingEntity_create := create;
  productRatingEntity_findById := findRating;
  queue_create := queueCreate;
  job_save := save
|}.

Definition manager : ProductManager := {| request := JObj ∅ |}.

(** The review schema with ratings from 1 to 5. *)
Definition schema : Joi.Schema := ReviewSchema.addReviewRequestSchema 1 5.

Definition keyboard : JSObject :=
  <["id" := JNum 7]> (<["name" := JStr "Keyboard"]> (<["price" := JNum 49]> ∅)).

Definition mouse : JSObject :=
  <["id" := JNum 1]> (<["name" := JStr "Mouse"]> (<["price" := JNum 19]> ∅)).

Definition shop (db queue : bool) : World := {|
  products := [mouse; keyboard];
  ratings := [new_rating (JNum 1) (JNum 7) (JNum 4) (JStr "Solid keys")];
  jobs := [];
  database_up := db;
  queue_up := queue
|}.

Definition start (db queue : bool) : State World :=
  {| world := shop db queue; trace := [] |}.

(** A schema whose [rating] rule converts a string of digits to the
    number it spells, as validators do that normalize their input. *)
Fixpoint digits (s : string) (acc : Z) : option Z :=
  match s with
  | EmptyString => Some acc
  | String c rest =>
      let d := Z.of_nat (Ascii.nat_of_ascii c) - 48 in
      if (0 <=? d) && (d <=? 9) then digits rest (10 * acc + d) else None
  end.

Definition converting_rating_rule : Joi.Rule := fun item =>
  match item with
  | JNum _ => Joi.pass item
  | JStr (String c rest) =>
      match digits (String c rest) 0 with
      | Some n => Joi.pass (JNum n)
      | None => Joi.fail "number.base" "rating" item
      end
  | JUndefined => Joi.fail "any.required" "rating" item
  | _ => Joi.fail "number.base" "rating" item
  end.

Definition converting_schema : Joi.Schema :=
  [ ("product_id", ReviewSchema.product_id_rule);
    ("rating", converting_rating_rule);
    ("review", ReviewSchema.review_rule) ].

End TestDouble.

(** The in-memory collaborators with one fault each. *)
Module Faulty.
Import TestDouble.

(** A rating entity whose [create] answers with an id and stores
    nothing, so that the re-fetch finds no record. *)
Definition lost_write (request productId rating review : JSValue) (w : World)
    : Outcome JSValue * World :=
  (Resolved (JNum 99), w).

Definition env_losing_writes : Collaborators World := {|
  productEntity_getAll := listProducts;
  productEntity_findById := findProduct;
  productRatingEntity_getAllByProductId := getAllByProductId;
  productRatingEntity_create := lost_write;
  productRatingEntity_findById := findRating;
  queue_create := queueCreate;
  job_save := save
|}.

(** A rating entity whose lookup by product always rejects. *)
Definition no_ratings (request productId : JSValue) (w : World)
    : Outcome JSValue * World :=
  (Rejected (failure "PersistenceError"), w).

Definition env_without_ratings : Collaborators World := {|
  productEntity_getAll := listProducts;
  productEntity_findById := findProduct;
  productRatingEntity_getAllByProductId := no_ratings;
  productRatingEntity_create := create;
  productRatingEntity_findById := findRating;
  queue_create := queueCreate;
  job_save := save
|}.

(** A queue whose [create] throws. *)
Definition throwing_create (event payload : JSValue) (w : World)
    : Outcome JSValue * World :=
  (Rejected (failure "QueueError"), w).

Definition env_with_throwing_queue : Collaborators World := {|
  productEntity_getAll := listProducts;
  productEntity_findById := findProduct;
  productRatingEntity_getAllByProductId := getAllByProductId;
  productRatingEntity_create := create;
  productRatingEntity_findById := findRating;
  queue_create := throwing_create;
  job_save := save
|}.

End Faulty.

(** ** Facts about the validation run *)

Module JoiFacts.
Import Joi.

Lemma validate_keys_collects keys data target :
  ∃ target',
    validate_keys false keys data target =
      (concat ((fun kr => errors (kr.2 (get_prop data kr.1))) <$> keys),
       target', false).
Proof.
  revert target.
  induction keys as [|[key rule] rest IH]; intros target; simpl.
  - by exists target.
  - destruct (errors (rule (get_prop data key))) as [|e es] eqn:E.
    + destruct (IH (assign_key key (get_prop data key)
                      (normalized (rule (get_prop data key))) target))
        as [t' ->].
      by exists t'.
    + destruct (IH target) as [t' ->]. by exists t'.
Qed.


(** Without [abortEarly] the run reports exactly the violations. *)
Lemma validate_reports_violations schema data :
  error (validate data schema {| abortEarly := false |}) =
    match violations schema data with
    | [] => None
    | _ :: _ => Some (ValidationError (violations schema data) data)
    end.
Proof.
  unfold validate, violations; simpl.
  destruct (validate_keys_collects schema data data) as [t' ->].
  unfold unknown_errors; simpl.
  by destruct (_ ++ _).
Qed.





(** The switch matters: on [{rating: 9}] a run that aborts early reports
    the first error only, where the run of the manager reports three. *)
Lemma abort_early_reports_first_only :
  Joi.error (validate (<["rating" := JNum 9]> ∅) TestDouble.schema
               {| abortEarly := true |}) =
    Some (ValidationError [detail "any.required" "product_id"]
            (<["rating" := JNum 9]> ∅))
  ∧ length (violations TestDouble.schema (<["rating" := JNum 9]> ∅)) = 3%nat.
Proof. split; vm_compute; reflexivity. Qed.

End JoiFacts.

(** ** Facts about promises and traces *)

Section AsyncFacts.
Context {World : Type}.

(** A [catch] that rejects with the error it caught changes nothing. *)
Lemma try_catch_rethrow {A : Type} (m : Async World A) (st : State World) :
  try_catch m (fun error => reject error) st = m st.
Proof. unfold try_catch, reject. by destruct (m st) as [[a|e] st']. Qed.

Lemma outcome_map_same (o : Outcome JSValue) :
  outcome_map (fun v => v) o = o.
Proof. by destruct o. Qed.

Lemma invoke_run {A : Type} (c : Call) (to_js : A -> JSValue)
    (run : World -> Outcome A * World) w t o w' :
  run w = (o, w') →
  invoke c to_js run {| world := w; trace := t |} =
    (o, {| world := w';
           trace := t ++ [{| call := c; outcome := outcome_map to_js o |}] |}).
Proof. intros H. unfold invoke; simpl. by rewrite H. Qed.

Lemma count_calls_app kind (t1 t2 : list Event) :
  count_calls kind (t1 ++ t2) = (count_calls kind t1 + count_calls kind t2)%nat.
Proof. unfold count_calls. by rewrite List.filter_app, length_app. Qed.

End AsyncFacts.

(** ** The operations of the manager *)

Section ManagerFacts.
Context {World : Type}.
Variable env : Collaborators World.

Implicit Types (this : ProductManager) (st : State World).
Implicit Types (schema : Joi.Schema) (data : JSObject).

(** What [validateAddReviewRequest] does on either answer of the
    validation run. *)
Lemma validate_rejects schema data error st :
  Joi.error (Joi.validate data schema {| Joi.abortEarly := false |}) = Some error →
  validateAddReviewRequest (World := World) schema data st =
    (Rejected (JObj (<["badRequest" := JBool true]> error)), st).
Proof. intros H. unfold validateAddReviewRequest. by rewrite H. Qed.

Lemma validate_resolves schema data st :
  Joi.error (Joi.validate data schema {| Joi.abortEarly := false |}) = None →
  validateAddReviewRequest (World := World) schema data st =
    (Resolved (Joi.value (Joi.validate data schema {| Joi.abortEarly := false |})), st).
Proof. intros H. unfold validateAddReviewRequest. by rewrite H. Qed.

Lemma addRating_validated schema this productId rating review st :
  Joi.error (Joi.validate (review_request productId rating review) schema
               {| Joi.abortEarly := false |}) = None →
  addRating env schema this productId rating review st =
    persist_and_publish env this productId rating review st.
Proof.
  intros Hv. unfold addRating. rewrite try_catch_rethrow.
  unfold await at 1. by rewrite (validate_resolves _ _ _ Hv).
Qed.

Lemma addRating_invalid schema this productId rating review error st :
  Joi.error (Joi.validate (review_request productId rating review) schema
               {| Joi.abortEarly := false |}) = Some error →
  addRating env schema this productId rating review st =
    (Rejected (JObj (<["badRequest" := JBool true]> error)), st).
Proof.
  intros Hv. unfold addRating. rewrite try_catch_rethrow.
  unfold await at 1. by rewrite (validate_rejects _ _ _ _ Hv).
Qed.

(** The events of a call that publishes: the queue's [create], then the
    job's [save] if [create] returned a job. *)
Lemma publish_events (event payload : JSValue) st :
  ∃ qevs,
    trace (publishToRealtimeQueue env event payload st).2 = trace st ++ qevs ∧
    Forall (fun ev => is_queue_call (call ev) = true) qevs.
Proof.
  unfold publishToRealtimeQueue, await, invoke, resolve.
  destruct (queue_create env event payload (world st)) as [[job|e] w1]; simpl.
  - destruct (job_save env job w1) as [[saved|e] w2]; simpl;
      rewrite <- app_assoc; eexists; (split; [reflexivity|]);
      by repeat constructor.
  - eexists; split; [reflexivity|]. by repeat constructor.
Qed.

(** *** addRating *)

(** The run of [addRating] on which everything succeeds. *)
Lemma successful_run_of_addRating schema this productId rating review
    t0 w0 w1 w2 w3 w4 createdRatingId createdRating job saved :
  Joi.error (Joi.validate (review_request productId rating review) schema
               {| Joi.abortEarly := false |}) = None →
  productRatingEntity_create env (request this) productId rating review w0 =
    (Resolved createdRatingId, w1) →
  productRatingEntity_findById env (request this) createdRatingId w1 =
    (Resolved createdRating, w2) →
  queue_create env (JStr "product-rating:added")
    (rating_added createdRating productId) w2 = (Resolved job, w3) →
  job_save env job w3 = (Resolved saved, w4) →
  addRating env schema this productId rating review
    {| world := w0; trace := t0 |} =
    (Resolved createdRating,
     {| world := w4;
        trace := t0 ++
          [ {| call := ProductRatingEntity_create (request this)
                         productId rating review;
               outcome := Resolved createdRatingId |};
            {| call := ProductRatingEntity_findById (request this)
                         createdRatingId;
               outcome := Resolved createdRating |};
            {| call := realtimeQueue_create (JStr "product-rating:added")
                         (rating_added createdRating productId);
               outcome := Resolved job |};
            {| call := Job_save job; outcome := Resolved saved |} ] |}).
Proof.
  intros Hv Hc Hf Hq Hs.
  rewrite (addRating_validated _ _ _ _ _ _ Hv).
  unfold persist_and_publish, publishToRealtimeQueue, await.
  rewrite (invoke_run _ _ _ _ _ _ _ Hc); simpl.
  rewrite (invoke_run _ _ _ _ _ _ _ Hf); simpl.
  rewrite (invoke_run _ _ _ _ _ _ _ Hq); simpl.
  rewrite (invoke_run _ _ _ _ _ _ _ Hs); simpl.
  unfold resolve. by rewrite <- !app_assoc.
Qed.

(** C1.  When the validation of [{product_id, rating, review}] succeeds and
    every collaborator resolves, [addRating] calls the rating entity's
    [create] once with the three arguments, then its [findById] once with
    the id that [create] returned, then the queue's [create] once with the
    event [product-rating:added] and the payload [{rating: <the re-read
    rating>, product_id: productId}] (and saves that job), and resolves
    with the re-read rating. *)
Theorem addRating_success schema this productId rating review
    t0 w0 w1 w2 w3 w4 createdRatingId createdRating job saved :
  Joi.error (Joi.validate (review_request productId rating review) schema
               {| Joi.abortEarly := false |}) = None →
  productRatingEntity_create env (request this) productId rating review w0 =
    (Resolved createdRatingId, w1) →
  productRatingEntity_findById env (request this) createdRatingId w1 =
    (Resolved createdRating, w2) →
  queue_create env (JStr "product-rating:added")
    (rating_added createdRating productId) w2 = (Resolved job, w3) →
  job_save env job w3 = (Resolved saved, w4) →
  let run := addRating env schema this productId rating review
               {| world := w0; trace := t0 |} in
  run =
    (Resolved createdRating,
     {| world := w4;
        trace := t0 ++
          [ {| call := ProductRatingEntity_create (request this)
                         productId rating review;
               outcome := Resolved createdRatingId |};
            {| call := ProductRatingEntity_findById (request this)
                         createdRatingId;
               outcome := Resolved createdRating |};
            {| call := realtimeQueue_create (JStr "product-rating:added")
                         (JObj (<["product_id" := productId]>
                                  (<["rating" := createdRating]> ∅)));
               outcome := Resolved job |};
            {| call := Job_save job; outcome := Resolved saved |} ] |})
  ∧ count_calls is_rating_create (trace run.2) =
      S (count_calls is_rating_create t0)
  ∧ count_calls is_rating_findById (trace run.2) =
      S (count_calls is_rating_findById t0)
  ∧ count_calls is_queue_create (trace run.2) =
      S (count_calls is_queue_create t0).
Proof.
  intros Hv Hc Hf Hq Hs run. subst run.
  rewrite (successful_run_of_addRating _ _ _ _ _ _ _ _ _ _ _ _ _ _ _ Hv Hc Hf Hq Hs).
  split; [done|]. simpl.
  rewrite !count_calls_app. cbn. repeat split; lia.
Qed.

(** C2.  In every run of [addRating] the events added to the trace are
    such that a queue call is preceded by the rating [create] and by the
    [findById] of the created id, both resolved; and when [create]
    rejects, the run contains no queue call at all. *)
Theorem addRating_queue_after_persistence schema this productId rating review st :
  ∃ evs,
    trace (addRating env schema this productId rating review st).2 =
      trace st ++ evs
    ∧ (∀ (i : nat) ev,
         evs !! i = Some ev → is_queue_call (call ev) = true →
         ∃ createdRatingId createdRating,
           evs !! 0%nat =
             Some {| call := ProductRatingEntity_create (request this)
                               productId rating review;
                     outcome := Resolved createdRatingId |}
           ∧ evs !! 1%nat =
               Some {| call := ProductRatingEntity_findById (request this)
                                 createdRatingId;
                       outcome := Resolved createdRating |}
           ∧ (2 ≤ i)%nat)
    ∧ (∀ error,
         (productRatingEntity_create env (request this) productId rating
            review (world st)).1 = Rejected error →
         Forall (fun ev => is_queue_call (call ev) = false) evs).
Proof.
  destruct (Joi.error (Joi.validate (review_request productId rating review)
              schema {| Joi.abortEarly := false |})) as [err|] eqn:Hv.
  { rewrite (addRating_invalid _ _ _ _ _ _ _ Hv); simpl.
    exists []. rewrite app_nil_r. repeat split; [|by constructor].
    intros i ev Hi. by rewrite lookup_nil in Hi. }
  rewrite (addRating_validated _ _ _ _ _ _ Hv).
  unfold persist_and_publish, await at 1, invoke at 1; simpl.
  destruct (productRatingEntity_create env (request this) productId rating
              review (world st)) as [[createdRatingId|e] w1]; simpl.
  2:{ eexists; split; [reflexivity|]. split.
      - intros [|[|i]] ev Hi Hq; simplify_eq/=.
      - intros error _. by repeat constructor. }
  unfold await at 1, invoke at 1; simpl.
  destruct (productRatingEntity_findById env (request this) createdRatingId w1)
    as [[createdRating|e] w2]; simpl.
  2:{ rewrite <- app_assoc. eexists; split; [reflexivity|]. split.
      - intros [|[|i]] ev Hi Hq; simplify_eq/=.
      - intros error Herr; simplify_eq. }
  unfold await, resolve.
  match goal with
  | |- context [publishToRealtimeQueue env ?event ?payload ?st2] =>
      destruct (publish_events event payload st2) as (qevs & Hq & Hall);
      destruct (publishToRealtimeQueue env event payload st2)
        as [[unit|e] st3]
  end; simpl in *; rewrite Hq, <- !app_assoc;
    (eexists; split; [reflexivity|]; split;
      [ intros [|[|i]] ev Hi Hqc; simplify_eq/=;
        eexists _, _; repeat split; lia
      | intros error Herr; simplify_eq ]).
Qed.

(** C3.  When the validation fails, [addRating] rejects with the
    validation error marked [badRequest] and leaves the state as it was:
    no call reaches the rating entity or the queue. *)
Theorem addRating_validation_failure schema this productId rating review error st :
  Joi.error (Joi.validate (review_request productId rating review) schema
               {| Joi.abortEarly := false |}) = Some error →
  addRating env schema this productId rating review st =
    (Rejected (JObj (<["badRequest" := JBool true]> error)), st)
  ∧ get_prop (<["badRequest" := JBool true]> error) "badRequest" = JBool true
  ∧ trace (addRating env schema this productId rating review st).2 = trace st
  ∧ world (addRating env schema this productId rating review st).2 = world st.
Proof.
  intros Hv. rewrite (addRating_invalid _ _ _ _ _ _ _ Hv); simpl.
  repeat split. unfold get_prop. by rewrite lookup_insert_eq.
Qed.

(** C5.  When validation, [create] and the re-fetch succeed and the
    publication rejects, [addRating] rejects with that error and stops
    there: the state is the one the publication left, and all it added to
    the trace after the rating's [create] and [findById] are queue calls;
    no further call is made on the persistence layer. *)
Theorem addRating_publication_failure schema this productId rating review
    t0 w0 w1 w2 createdRatingId createdRating error st3 :
  Joi.error (Joi.validate (review_request productId rating review) schema
               {| Joi.abortEarly := false |}) = None →
  productRatingEntity_create env (request this) productId rating review w0 =
    (Resolved createdRatingId, w1) →
  productRatingEntity_findById env (request this) createdRatingId w1 =
    (Resolved createdRating, w2) →
  let persisted :=
    t0 ++ [ {| call := ProductRatingEntity_create (request this)
                         productId rating review;
               outcome := Resolved createdRatingId |};
            {| call := ProductRatingEntity_findById (request this)
                         createdRatingId;
               outcome := Resolved createdRating |} ] in
  publishToRealtimeQueue env (JStr "product-rating:added")
    (rating_added createdRating productId)
    {| world := w2; trace := persisted |} = (Rejected error, st3) →
  addRating env schema this productId rating review
    {| world := w0; trace := t0 |} = (Rejected error, st3)
  ∧ ∃ qevs,
      trace st3 = persisted ++ qevs
      ∧ Forall (fun ev => is_queue_call (call ev) = true) qevs
      ∧ count_calls is_persistence_call (trace st3) =
          count_calls is_persistence_call persisted.
Proof.
  intros Hv Hc Hf persisted Hp.
  split.
  - rewrite (addRating_validated _ _ _ _ _ _ Hv).
    unfold persist_and_publish, await.
    rewrite (invoke_run _ _ _ _ _ _ _ Hc); simpl.
    rewrite (invoke_run _ _ _ _ _ _ _ Hf); simpl.
    rewrite <- app_assoc; simpl. fold persisted. by rewrite Hp.
  - destruct (publish_events (JStr "product-rating:added")
                (rating_added createdRating productId)
                {| world := w2; trace := persisted |}) as (qevs & Hq & Hall).
    rewrite Hp in Hq; simpl in Hq.
    exists qevs. repeat split; [done..|].
    rewrite Hq, count_calls_app.
    assert (count_calls is_persistence_call qevs = 0%nat) as ->; [|lia].
    clear Hq. induction Hall as [|ev rest Hev _ IH]; [done|].
    unfold count_calls, is_persistence_call in *; simpl. by rewrite Hev.
Qed.

(** C10.  The value that the validation resolves with is not used: on a
    successful run the rating entity's [create] receives the arguments
    of the caller and the payload's [product_id] is the caller's
    [productId], whatever the validated value is; and the run is the same
    under any other schema that accepts the request. *)
Theorem addRating_ignores_validated_value schema this productId rating review
    validated t0 w0 w1 w2 w3 w4 createdRatingId createdRating job saved :
  Joi.validate (review_request productId rating review) schema
    {| Joi.abortEarly := false |} = {| Joi.error := None; Joi.value := validated |} →
  productRatingEntity_create env (request this) productId rating review w0 =
    (Resolved createdRatingId, w1) →
  productRatingEntity_findById env (request this) createdRatingId w1 =
    (Resolved createdRating, w2) →
  queue_create env (JStr "product-rating:added")
    (rating_added createdRating productId) w2 = (Resolved job, w3) →
  job_save env job w3 = (Resolved saved, w4) →
  let st := {| world := w0; trace := t0 |} in
  (∃ payload,
     (call <$> trace (addRating env schema this productId rating review st).2) =
       (call <$> t0) ++
         [ ProductRatingEntity_create (request this) productId rating review;
           ProductRatingEntity_findById (request this) createdRatingId;
           realtimeQueue_create (JStr "product-rating:added") (JObj payload);
           Job_save job ]
     ∧ payload !! "product_id" = Some productId
     ∧ payload !! "rating" = Some createdRating)
  ∧ (∀ schema',
       Joi.error (Joi.validate (review_request productId rating review) schema'
                    {| Joi.abortEarly := false |}) = None →
       addRating env schema' this productId rating review st =
         addRating env schema this productId rating review st).
Proof.
  intros Hval Hc Hf Hq Hs st.
  assert (Hv : Joi.error (Joi.validate (review_request productId rating review)
                 schema {| Joi.abortEarly := false |}) = None) by by rewrite Hval.
  split.
  - subst st.
    rewrite (successful_run_of_addRating _ _ _ _ _ _ _ _ _ _ _ _ _ _ _ Hv Hc Hf Hq Hs).
    simpl. eexists. rewrite fmap_app; simpl. split; [reflexivity|].
    split; [by rewrite lookup_insert_eq|].
    rewrite lookup_insert_ne; [|done]. by rewrite lookup_insert_eq.
  - intros schema' Hv'.
    by rewrite (addRating_validated _ _ _ _ _ _ Hv),
               (addRating_validated _ _ _ _ _ _ Hv').
Qed.

(** *** findById and getAll *)

(** C6.  When the product lookup rejects, [findById] rejects with the same
    error after that one call: the ratings lookup is not invoked. *)
Theorem findById_product_lookup_fails this id error w0 w1 t0 :
  productEntity_findById env (request this) id w0 = (Rejected error, w1) →
  let run := findById env this id {| world := w0; trace := t0 |} in
  run =
    (Rejected error,
     {| world := w1;
        trace := t0 ++ [ {| call := ProductEntity_findById (request this) id;
                            outcome := Rejected error |} ] |})
  ∧ count_calls is_ratings_lookup (trace run.2) =
      count_calls is_ratings_lookup t0.
Proof.
  intros Hp run.
  assert (Hrun : run = (Rejected error,
     {| world := w1;
        trace := t0 ++ [ {| call := ProductEntity_findById (request this) id;
                            outcome := Rejected error |} ] |})).
  { subst run. unfold findById. rewrite try_catch_rethrow.
    unfold await at 1. by rewrite (invoke_run _ _ _ _ _ _ _ Hp). }
  rewrite Hrun. split; [done|]. simpl.
  rewrite count_calls_app. cbn. lia.
Qed.

(** C7.  When both lookups resolve, [findById] resolves with the product
    of the product lookup in which [ratings] is what the ratings lookup
    resolved with (for a sequence: that sequence, in its order) and every
    other property is as the product lookup gave it. *)
Theorem findById_attaches_ratings this id product ratings w0 w1 w2 t0 :
  productEntity_findById env (request this) id w0 = (Resolved product, w1) →
  productRatingEntity_getAllByProductId env (request this) id w1 =
    (Resolved ratings, w2) →
  ∃ result : JSObject,
    findById env this id {| world := w0; trace := t0 |} =
      (Resolved (JObj result),
       {| world := w2;
          trace := t0 ++
            [ {| call := ProductEntity_findById (request this) id;
                 outcome := Resolved (JObj product) |};
              {| call := ProductRatingEntity_getAllByProductId (request this) id;
                 outcome := Resolved ratings |} ] |})
    ∧ result !! "ratings" = Some ratings
    ∧ ∀ key, key ≠ "ratings" → result !! key = product !! key.
Proof.
  intros Hp Hr.
  exists (<["ratings" := ratings]> product). split; [|split].
  - unfold findById. rewrite try_catch_rethrow. unfold await.
    rewrite (invoke_run _ _ _ _ _ _ _ Hp); simpl.
    rewrite (invoke_run _ _ _ _ _ _ _ Hr); simpl.
    unfold resolve. by rewrite <- app_assoc.
  - by rewrite lookup_insert_eq.
  - intros key Hne. by rewrite lookup_insert_ne.
Qed.

(** C8.  [getAll] ends as the product entity's [getAll] ends: it resolves
    with the very value the entity resolved with (for a sequence of
    products: that sequence, in its order), or rejects with the very error
    the entity rejected with. *)
Theorem getAll_passes_through this (o : Outcome JSValue) w0 w1 t0 :
  productEntity_getAll env (request this) w0 = (o, w1) →
  getAll env this {| world := w0; trace := t0 |} =
    (o, {| world := w1;
           trace := t0 ++ [ {| call := ProductEntity_getAll (request this);
                               outcome := o |} ] |}).
Proof.
  intros Hg. unfold getAll. rewrite try_catch_rethrow. unfold await.
  rewrite (invoke_run _ _ _ _ _ _ _ Hg), outcome_map_same.
  by destruct o.
Qed.

(** *** validateAddReviewRequest *)

(** C4.  When the schema finds anything wrong with the input object,
    [validateAddReviewRequest] rejects with an error marked [badRequest]
    whose [details] are all the violations: every error of every field is
    among them, not the first one only. *)
Theorem validate_collects_every_violation schema data st :
  Joi.violations schema data ≠ [] →
  ∃ error : JSObject,
    validateAddReviewRequest (World := World) schema data st =
      (Rejected (JObj error), st)
    ∧ error !! "badRequest" = Some (JBool true)
    ∧ error !! "details" = Some (JArr (Joi.violations schema data))
    ∧ (∀ key rule d,
         (key, rule) ∈ schema →
         d ∈ Joi.errors (rule (get_prop data key)) →
         d ∈ Joi.violations schema data)
    ∧ (∀ key,
         is_Some (data !! key) → key ∉ schema.*1 →
         Joi.detail "object.allowUnknown" key ∈ Joi.violations schema data).
Proof.
  intros Hbad.
  pose proof (JoiFacts.validate_reports_violations schema data) as Herr.
  destruct (Joi.violations schema data) as [|d0 ds] eqn:Hvs; [done|].
  rewrite <- Hvs in *.
  eexists. split; [by apply validate_rejects|].
  split; [by rewrite lookup_insert_eq|].
  split; [unfold Joi.ValidationError; by simplify_map_eq|].
  split.
  - intros key rule d Hin Hd. unfold Joi.violations.
    apply elem_of_app; left. apply list_elem_of_In, in_concat.
    exists (Joi.errors (rule (get_prop data key))).
    split; [|by apply list_elem_of_In].
    apply list_elem_of_In, list_elem_of_fmap. by exists (key, rule).
  - intros key [v Hv] Hunk. unfold Joi.violations.
    apply elem_of_app; right. apply list_elem_of_fmap.
    exists key. split; [done|]. unfold Joi.unknown_keys.
    apply list_elem_of_filter. split.
    + unfold Joi.known. by apply bool_decide_eq_false.
    + apply list_elem_of_fmap. exists (key, v). split; [done|].
      by apply elem_of_map_to_list.
Qed.


End ManagerFacts.

(** ** Every path through the manager *)

Section ManagerPaths.
Context {World : Type}.
Variable env : Collaborators World.

Implicit Types (this : ProductManager) (st : State World).
Implicit Types (schema : Joi.Schema) (data : JSObject).

(** [publishToRealtimeQueue], call by call. *)
Lemma publish_unfold (event payload : JSValue) st :
  publishToRealtimeQueue env event payload st =
    match queue_create env event payload (world st) with
    | (Rejected e, w1) =>
        (Rejected e,
         {| world := w1;
            trace := trace st ++
              [ {| call := realtimeQueue_create event payload;
                   outcome := Rejected e |} ] |})
    | (Resolved job, w1) =>
        match job_save env job w1 with
        | (o, w2) =>
            (outcome_map (fun _ => JUndefined) o,
             {| world := w2;
                trace := trace st ++
                  [ {| call := realtimeQueue_create event payload;
                       outcome := Resolved job |};
                    {| call := Job_save job; outcome := o |} ] |})
        end
    end.
Proof.
  unfold publishToRealtimeQueue, await, invoke, resolve.
  destruct (queue_create env event payload (world st)) as [[job|e] w1]; simpl;
    [|done].
  destruct (job_save env job w1) as [[saved|e] w2]; simpl;
    by rewrite <- app_assoc.
Qed.

(** [addRating] past the validation, call by call. *)
Lemma persist_and_publish_unfold this (productId rating review : JSValue) st :
  persist_and_publish env this productId rating review st =
    let create_call :=
      ProductRatingEntity_create (request this) productId rating review in
    match productRatingEntity_create env (request this) productId rating
            review (world st) with
    | (Rejected e, w1) =>
        (Rejected e,
         {| world := w1;
            trace := trace st ++
              [ {| call := create_call; outcome := Rejected e |} ] |})
    | (Resolved createdRatingId, w1) =>
        let find_call :=
          ProductRatingEntity_findById (request this) createdRatingId in
        match productRatingEntity_findById env (request this)
                createdRatingId w1 with
        | (Rejected e, w2) =>
            (Rejected e,
             {| world := w2;
                trace := trace st ++
                  [ {| call := create_call; outcome := Resolved createdRatingId |};
                    {| call := find_call; outcome := Rejected e |} ] |})
        | (Resolved createdRating, w2) =>
            let persisted :=
              trace st ++
                [ {| call := create_call; outcome := Resolved createdRatingId |};
                  {| call := find_call; outcome := Resolved createdRating |} ] in
            match publishToRealtimeQueue env (JStr "product-rating:added")
                    (rating_added createdRating productId)
                    {| world := w2; trace := persisted |} with
            | (Rejected e, st3) => (Rejected e, st3)
            | (Resolved _, st3) => (Resolved createdRating, st3)
            end
        end
    end.
Proof.
  unfold persist_and_publish, await at 1, invoke at 1; simpl.
  destruct (productRatingEntity_create env (request this) productId rating
              review (world st)) as [[createdRatingId|e] w1]; simpl; [|done].
  unfold await at 1, invoke at 1; simpl.
  destruct (productRatingEntity_findById env (request this) createdRatingId w1)
    as [[createdRating|e] w2]; simpl; [|by rewrite <- app_assoc].
  unfold await, resolve. rewrite <- app_assoc; simpl.
  by destruct (publishToRealtimeQueue env _ _ _) as [[u|e] st3].
Qed.

(** [findById], call by call. *)
Lemma findById_unfold this (id : JSValue) st :
  findById env this id st =
    match productEntity_findById env (request this) id (world st) with
    | (Rejected e, w1) =>
        (Rejected e,
         {| world := w1;
            trace := trace st ++
              [ {| call := ProductEntity_findById (request this) id;
                   outcome := Rejected e |} ] |})
    | (Resolved product, w1) =>
        match productRatingEntity_getAllByProductId env (request this) id w1 with
        | (o, w2) =>
            (outcome_map (fun ratings => JObj (<["ratings" := ratings]> product)) o,
             {| world := w2;
                trace := trace st ++
                  [ {| call := ProductEntity_findById (request this) id;
                       outcome := Resolved (JObj product) |};
                    {| call := ProductRatingEntity_getAllByProductId
                                 (request this) id;
                       outcome := o |} ] |})
        end
    end.
Proof.
  unfold findById. rewrite try_catch_rethrow.
  unfold await, invoke, resolve; simpl.
  destruct (productEntity_findById env (request this) id (world st))
    as [[product|e] w1]; simpl; [|done].
  destruct (productRatingEntity_getAllByProductId env (request this) id w1)
    as [[ratings|e] w2]; simpl; by rewrite <- app_assoc.
Qed.

(** *** The failing steps of addRating *)

(** X1.  When the validation passes and the rating entity's [create]
    rejects, [addRating] rejects with that very error after that one call:
    neither the re-fetch nor the queue is invoked. *)
Theorem addRating_create_fails schema this productId rating review
    error w0 w1 t0 :
  Joi.error (Joi.validate (review_request productId rating review) schema
               {| Joi.abortEarly := false |}) = None →
  productRatingEntity_create env (request this) productId rating review w0 =
    (Rejected error, w1) →
  let run := addRating env schema this productId rating review
               {| world := w0; trace := t0 |} in
  run =
    (Rejected error,
     {| world := w1;
        trace := t0 ++
          [ {| call := ProductRatingEntity_create (request this)
                         productId rating review;
               outcome := Rejected error |} ] |})
  ∧ count_calls is_rating_findById (trace run.2) =
      count_calls is_rating_findById t0
  ∧ count_calls is_queue_call (trace run.2) = count_calls is_queue_call t0.
Proof.
  intros Hv Hc run. subst run.
  rewrite (addRating_validated _ _ _ _ _ _ _ Hv), persist_and_publish_unfold.
  simpl. rewrite Hc. split; [done|]. simpl.
  rewrite !count_calls_app. cbn. lia.
Qed.

(** X2.  When [create] resolves and the re-fetch of the created id
    rejects, [addRating] rejects with that very error and stops: the
    queue is not invoked, and no call follows that would undo the
    [create]. *)
Theorem addRating_refetch_fails schema this productId rating review
    createdRatingId error w0 w1 w2 t0 :
  Joi.error (Joi.validate (review_request productId rating review) schema
               {| Joi.abortEarly := false |}) = None →
  productRatingEntity_create env (request this) productId rating review w0 =
    (Resolved createdRatingId, w1) →
  productRatingEntity_findById env (request this) createdRatingId w1 =
    (Rejected error, w2) →
  let run := addRating env schema this productId rating review
               {| world := w0; trace := t0 |} in
  run =
    (Rejected error,
     {| world := w2;
        trace := t0 ++
          [ {| call := ProductRatingEntity_create (request this)
                         productId rating review;
               outcome := Resolved createdRatingId |};
            {| call := ProductRatingEntity_findById (request this)
                         createdRatingId;
               outcome := Rejected error |} ] |})
  ∧ count_calls is_queue_call (trace run.2) = count_calls is_queue_call t0.
Proof.
  intros Hv Hc Hf run. subst run.
  rewrite (addRating_validated _ _ _ _ _ _ _ Hv), persist_and_publish_unfold.
  simpl. rewrite Hc, Hf. split; [done|]. simpl.
  rewrite !count_calls_app. cbn. lia.
Qed.

(** *** The failing step of findById *)

(** X3.  When the product lookup resolves and the ratings lookup rejects,
    [findById] rejects with the error of the ratings lookup: the product
    that was found is not returned without its ratings. *)
Theorem findById_ratings_lookup_fails this id product error w0 w1 w2 t0 :
  productEntity_findById env (request this) id w0 = (Resolved product, w1) →
  productRatingEntity_getAllByProductId env (request this) id w1 =
    (Rejected error, w2) →
  findById env this id {| world := w0; trace := t0 |} =
    (Rejected error,
     {| world := w2;
        trace := t0 ++
          [ {| call := ProductEntity_findById (request this) id;
               outcome := Resolved (JObj product) |};
            {| call := ProductRatingEntity_getAllByProductId (request this) id;
               outcome := Rejected error |} ] |}).
Proof.
  intros Hp Hr. rewrite findById_unfold. simpl. by rewrite Hp, Hr.
Qed.

(** *** publishToRealtimeQueue *)

(** X4.  When the queue's [create] throws, [publishToRealtimeQueue]
    rejects with what was thrown and no job is saved. *)
Theorem publish_create_throws (event payload : JSValue) error w0 w1 t0 :
  queue_create env event payload w0 = (Rejected error, w1) →
  let run := publishToRealtimeQueue env event payload
               {| world := w0; trace := t0 |} in
  run =
    (Rejected error,
     {| world := w1;
        trace := t0 ++ [ {| call := realtimeQueue_create event payload;
                            outcome := Rejected error |} ] |})
  ∧ count_calls is_job_save (trace run.2) = count_calls is_job_save t0.
Proof.
  intros Hq run. subst run. rewrite publish_unfold. simpl. rewrite Hq.
  split; [done|]. simpl. rewrite count_calls_app. cbn. lia.
Qed.

(** X5.  When the queue's [create] returns a job, [publishToRealtimeQueue]
    saves that job, once, and ends as the [save] ends: it rejects with
    the error of [save], or resolves with [undefined] whatever [save]
    resolved with. *)
Theorem publish_ends_as_save (event payload job : JSValue)
    (saved : Outcome JSValue) w0 w1 w2 t0 :
  queue_create env event payload w0 = (Resolved job, w1) →
  job_save env job w1 = (saved, w2) →
  publishToRealtimeQueue env event payload {| world := w0; trace := t0 |} =
    (match saved with
     | Resolved _ => Resolved JUndefined
     | Rejected e => Rejected e
     end,
     {| world := w2;
        trace := t0 ++ [ {| call := realtimeQueue_create event payload;
                            outcome := Resolved job |};
                         {| call := Job_save job; outcome := saved |} ] |}).
Proof.
  intros Hq Hs. rewrite publish_unfold. simpl. rewrite Hq, Hs.
  by destruct saved.
Qed.

(** *** Every run of addRating *)

(** The run of [addRating] has one of six shapes. *)
Ltac addRating_paths schema this productId rating review st :=
  let Hv := fresh "Hv" in
  destruct (Joi.error (Joi.validate (review_request productId rating review)
              schema {| Joi.abortEarly := false |})) as [?err|] eqn:Hv;
  [ rewrite (addRating_invalid _ _ _ _ _ _ _ _ Hv)
  | rewrite (addRating_validated _ _ _ _ _ _ _ Hv),
      persist_and_publish_unfold; simpl;
    destruct (productRatingEntity_create env _ _ _ _ _)
      as [[?createdRatingId|?e] ?w1];
    [ destruct (productRatingEntity_findById env _ _ _)
        as [[?createdRating|?e] ?w2];
      [ rewrite publish_unfold; simpl;
        destruct (queue_create env _ _ _) as [[?job|?e] ?w3];
        [ destruct (job_save env _ _) as [[?saved|?e] ?w4] | ]
      | ]
    | ] ];
  simpl; rewrite <- ?app_assoc; simpl.

(** X6.  In every run of [addRating] the calls made are an initial part of
    create, findById, queue create, save, in that order, and every call
    but the last one made has resolved: the run stops at the first call
    that rejects. *)
Theorem addRating_calls_are_a_pipeline_prefix schema this productId rating review st :
  ∃ evs,
    trace (addRating env schema this productId rating review st).2 =
      trace st ++ evs
    ∧ methods evs `prefix_of` addRating_pipeline
    ∧ ∀ (i : nat) ev,
        evs !! i = Some ev → (S i < length evs)%nat →
        is_resolved (outcome ev) = true.
Proof.
  addRating_paths schema this productId rating review st;
    [ exists []; rewrite app_nil_r | eexists .. ];
    (split; [reflexivity|]); (split; [by eexists|]);
    intros [|[|[|[|i]]]] ev Hi Hlt; simplify_eq/=; try done; lia.
Qed.

(** X7.  How a run of [addRating] ends.  If it rejects, then either the
    validation failed, no call was made and the error is the validation
    error marked [badRequest]; or the validation passed and the error is
    the one the last call rejected with, as it is.  If it resolves, all
    four calls were made and resolved, and the value is what the re-fetch
    resolved with. *)
Theorem addRating_ends_as_its_last_call schema this productId rating review st :
  ∃ evs,
    trace (addRating env schema this productId rating review st).2 =
      trace st ++ evs
    ∧ match (addRating env schema this productId rating review st).1 with
      | Rejected e =>
          (evs = []
           ∧ ∃ error,
               Joi.error (Joi.validate (review_request productId rating review)
                            schema {| Joi.abortEarly := false |}) = Some error
               ∧ e = JObj (<["badRequest" := JBool true]> error))
          ∨ (Joi.error (Joi.validate (review_request productId rating review)
                          schema {| Joi.abortEarly := false |}) = None
             ∧ ∃ c, last evs = Some {| call := c; outcome := Rejected e |})
      | Resolved v =>
          methods evs = addRating_pipeline
          ∧ Forall (fun ev => is_resolved (outcome ev) = true) evs
          ∧ ∃ c, evs !! 1%nat = Some {| call := c; outcome := Resolved v |}
      end.
Proof.
  addRating_paths schema this productId rating review st;
    [ exists []; rewrite app_nil_r | eexists .. ];
    (split; [reflexivity|]).
  - left. split; [done|]. by eexists.
  - split; [done|]. split; [by repeat constructor|]. by eexists.
  - right. split; [done|]. by eexists.
  - right. split; [done|]. by eexists.
  - right. split; [done|]. by eexists.
  - right. split; [done|]. by eexists.
Qed.

(** X11.  No run of [addRating] calls the product entity or looks up the
    ratings of a product: whether [productId] names a product is not
    looked up before the rating is created. *)
Theorem addRating_never_looks_up_the_product schema this productId rating review st :
  ∃ evs,
    trace (addRating env schema this productId rating review st).2 =
      trace st ++ evs
    ∧ Forall (fun ev => is_product_entity_call (call ev) = false
                        ∧ is_ratings_lookup (call ev) = false) evs.
Proof.
  addRating_paths schema this productId rating review st;
    [ exists []; rewrite app_nil_r | eexists .. ];
    (split; [reflexivity|]); by repeat constructor.
Qed.

(** *** Every run of findById *)

(** X10.  In every run of [findById] the product lookup is made, the
    ratings lookup follows only if the product lookup resolved, and
    nothing else is called: [findById] creates no rating and publishes
    nothing. *)
Theorem findById_calls_are_a_pipeline_prefix this (id : JSValue) st :
  ∃ evs,
    trace (findById env this id st).2 = trace st ++ evs
    ∧ methods evs `prefix_of` findById_pipeline
    ∧ evs ≠ []
    ∧ (∀ ev, evs !! 1%nat = Some ev →
         ∃ product,
           evs !! 0%nat =
             Some {| call := ProductEntity_findById (request this) id;
                     outcome := Resolved product |})
    ∧ Forall (fun ev => is_rating_create (call ev) = false
                        ∧ is_queue_call (call ev) = false) evs.
Proof.
  rewrite findById_unfold.
  destruct (productEntity_findById env (request this) id (world st))
    as [[product|e] w1];
    [ destruct (productRatingEntity_getAllByProductId env (request this) id w1)
        as [o w2] | ];
    simpl; eexists; (split; [reflexivity|]); (split; [by eexists|]);
    (split; [done|]); (split; [|by repeat constructor]);
    intros ev Hev; simplify_eq/=. by eexists.
Qed.

(** *** The request of the manager *)

(** X8.  A manager built from a request hands that request, and no other,
    to every entity it builds: in every run of [getAll], [findById] and
    [addRating], each entity call carries the request of the
    constructor. *)
Theorem manager_passes_its_request schema (req : JSValue)
    (id productId rating review : JSValue) st :
  let this := new_ProductManager req in
  let built_with_request (evs : list Event) :=
    Forall (fun ev => ∀ r, entity_request (call ev) = Some r → r = req) evs in
  (∃ evs, trace (getAll env this st).2 = trace st ++ evs
          ∧ built_with_request evs)
  ∧ (∃ evs, trace (findById env this id st).2 = trace st ++ evs
            ∧ built_with_request evs)
  ∧ (∃ evs, trace (addRating env schema this productId rating review st).2 =
              trace st ++ evs
            ∧ built_with_request evs).
Proof.
  intros this built_with_request. subst built_with_request.
  split; [|split].
  - unfold getAll. rewrite try_catch_rethrow.
    unfold await, invoke, resolve; simpl.
    destruct (productEntity_getAll env req (world st)) as [[v|e] w1];
      simpl; eexists; (split; [reflexivity|]);
      repeat constructor; intros r Hr; by simplify_eq/=.
  - rewrite findById_unfold.
    destruct (productEntity_findById env _ id (world st))
      as [[product|e] w1];
      [ destruct (productRatingEntity_getAllByProductId env _ id w1)
          as [o w2] | ];
      simpl; eexists; (split; [reflexivity|]);
      repeat constructor; intros r Hr; by simplify_eq/=.
  - addRating_paths schema this productId rating review st;
      [ exists []; rewrite app_nil_r | eexists .. ];
      (split; [reflexivity|]);
      repeat constructor; intros r Hr; by simplify_eq/=.
Qed.

(** *** The mark on a validation error *)

(** X9.  On a validation error, [validateAddReviewRequest] rejects with
    that error, on which it has set [badRequest] and changed nothing
    else: every other property, [details] among them, is as the
    validation run produced it.  No collaborator is called. *)
Theorem validate_marks_and_keeps_the_rest schema data error st :
  Joi.error (Joi.validate data schema {| Joi.abortEarly := false |}) =
    Some error →
  ∃ marked : JSObject,
    validateAddReviewRequest (World := World) schema data st =
      (Rejected (JObj marked), st)
    ∧ marked !! "badRequest" = Some (JBool true)
    ∧ (∀ key, key ≠ "badRequest" → marked !! key = error !! key)
    ∧ marked !! "details" = error !! "details".
Proof.
  intros Hv. exists (<["badRequest" := JBool true]> error).
  split; [by apply validate_rejects|].
  split; [by rewrite lookup_insert_eq|].
  split; [intros key Hne|]; by rewrite lookup_insert_ne.
Qed.

(** *** Two runs of addRating *)

(** X12.  [addRating] does not recognize a repeated submission: called
    twice with the same arguments, with every step succeeding, it creates
    twice and publishes twice, and the second call resolves with the
    second rating. *)
Theorem addRating_twice_creates_twice schema this productId rating review t0
    w0 w1 w2 w3 w4 w5 w6 w7 w8 id1 created1 job1 saved1 id2 created2 job2 saved2 :
  Joi.error (Joi.validate (review_request productId rating review) schema
               {| Joi.abortEarly := false |}) = None →
  productRatingEntity_create env (request this) productId rating review w0 =
    (Resolved id1, w1) →
  productRatingEntity_findById env (request this) id1 w1 =
    (Resolved created1, w2) →
  queue_create env (JStr "product-rating:added")
    (rating_added created1 productId) w2 = (Resolved job1, w3) →
  job_save env job1 w3 = (Resolved saved1, w4) →
  productRatingEntity_create env (request this) productId rating review w4 =
    (Resolved id2, w5) →
  productRatingEntity_findById env (request this) id2 w5 =
    (Resolved created2, w6) →
  queue_create env (JStr "product-rating:added")
    (rating_added created2 productId) w6 = (Resolved job2, w7) →
  job_save env job2 w7 = (Resolved saved2, w8) →
  let run :=
    (_ <- addRating env schema this productId rating review ;;
     addRating env schema this productId rating review)%async
      {| world := w0; trace := t0 |} in
  run.1 = Resolved created2
  ∧ world run.2 = w8
  ∧ count_calls is_rating_create (trace run.2) =
      S (S (count_calls is_rating_create t0))
  ∧ count_calls is_queue_create (trace run.2) =
      S (S (count_calls is_queue_create t0)).
Proof.
  intros Hv Hc1 Hf1 Hq1 Hs1 Hc2 Hf2 Hq2 Hs2 run. subst run.
  unfold await.
  rewrite (successful_run_of_addRating env _ _ _ _ _ _ _ _ _ _ _ _ _ _ _
             Hv Hc1 Hf1 Hq1 Hs1).
  rewrite (successful_run_of_addRating env _ _ _ _ _ _ _ _ _ _ _ _ _ _ _
             Hv Hc2 Hf2 Hq2 Hs2).
  simpl. rewrite !count_calls_app. cbn. repeat split; lia.
Qed.

End ManagerPaths.

(** ** Runs on the in-memory collaborators *)

Module Runs.
Import TestDouble.

(** [addRating(1, 5, "Great product")] with database and queue up. *)
Lemma addRating_success_witness :
  (addRating env schema manager (JNum 1) (JNum 5) (JStr "Great product")
     (start true true)).1 =
    Resolved (JObj (new_rating (JNum 2) (JNum 1) (JNum 5) (JStr "Great product")))
  ∧ count_calls is_rating_create
      (trace (addRating env schema manager (JNum 1) (JNum 5)
                (JStr "Great product") (start true true)).2) = 1%nat.
Proof.
  edestruct (addRating_success env schema manager
               (JNum 1) (JNum 5) (JStr "Great product") [] (shop true true))
    as (Hrun & Hcreate & _).
  - vm_compute; reflexivity.
  - reflexivity.
  - reflexivity.
  - reflexivity.
  - reflexivity.
  - unfold start. split.
    + rewrite Hrun. reflexivity.
    + rewrite Hcreate. reflexivity.
Defined.

(** [addRating] with the database down: [create] rejects and the queue is
    left alone. *)
Lemma addRating_queue_after_persistence_witness :
  (productRatingEntity_create env (request manager) (JNum 1) (JNum 5)
     (JStr "Great product") (world (start false true))).1 =
    Rejected (failure "PersistenceError")
  ∧ count_calls is_queue_call
      (trace (addRating env schema manager (JNum 1) (JNum 5)
                (JStr "Great product") (start false true)).2) = 0%nat.
Proof.
  split; [reflexivity|].
  destruct (addRating_queue_after_persistence env schema manager
              (JNum 1) (JNum 5) (JStr "Great product") (start false true))
    as (evs & Htrace & _ & Hfail).
  rewrite Htrace. simpl.
  specialize (Hfail (failure "PersistenceError") eq_refl).
  clear Htrace. induction Hfail as [|ev rest Hev _ IH]; [reflexivity|].
  unfold count_calls in *. simpl. rewrite Hev. exact IH.
Defined.

(** [addRating(1, 9, undefined)]: the rating is out of range and the
    review is missing. *)
Lemma addRating_validation_failure_witness :
  trace (addRating env schema manager (JNum 1) (JNum 9) JUndefined
           (start true true)).2 = []
  ∧ world (addRating env schema manager (JNum 1) (JNum 9) JUndefined
             (start true true)).2 = shop true true.
Proof.
  edestruct (addRating_validation_failure env schema manager
               (JNum 1) (JNum 9) JUndefined
               (Joi.ValidationError
                  [ Joi.detail "number.max" "rating";
                    Joi.detail "any.required" "review" ]
                  (review_request (JNum 1) (JNum 9) JUndefined))
               (start true true))
    as (_ & _ & Htrace & Hworld).
  - vm_compute; reflexivity.
  - split; [exact Htrace | exact Hworld].
Defined.

(** [addRating] with the queue down: the rating is in the database when
    the run rejects. *)
Lemma addRating_publication_failure_witness :
  (addRating env schema manager (JNum 1) (JNum 5) (JStr "Great product")
     (start true false)).1 = Rejected (failure "QueueError")
  ∧ ratings (world (addRating env schema manager (JNum 1) (JNum 5)
                      (JStr "Great product") (start true false)).2) =
      [ new_rating (JNum 1) (JNum 7) (JNum 4) (JStr "Solid keys");
        new_rating (JNum 2) (JNum 1) (JNum 5) (JStr "Great product") ].
Proof.
  edestruct (addRating_publication_failure env schema manager
               (JNum 1) (JNum 5) (JStr "Great product") [] (shop true false))
    as (Hrun & _).
  - vm_compute; reflexivity.
  - reflexivity.
  - reflexivity.
  - reflexivity.
  - unfold start. rewrite Hrun. split; reflexivity.
Defined.

(** [addRating(1, "5", "Great product")] under a schema that converts the
    rating: the validated rating is the number 5, the rating handed to
    [create] is the string the caller gave. *)
Lemma addRating_ignores_validated_value_witness :
  Joi.value (Joi.validate (review_request (JNum 1) (JStr "5") (JStr "Great product"))
               converting_schema {| Joi.abortEarly := false |}) =
    JObj (review_request (JNum 1) (JNum 5) (JStr "Great product"))
  ∧ (call <$> trace (addRating env converting_schema manager (JNum 1) (JStr "5")
                       (JStr "Great product") (start true true)).2) !! 0%nat =
      Some (ProductRatingEntity_create (request manager) (JNum 1) (JStr "5")
              (JStr "Great product")).
Proof.
  split; [vm_compute; reflexivity|].
  edestruct (addRating_ignores_validated_value env converting_schema manager
               (JNum 1) (JStr "5") (JStr "Great product")
               (JObj (review_request (JNum 1) (JNum 5) (JStr "Great product")))
               [] (shop true true))
    as ((payload & Hcalls & _) & _).
  - vm_compute; reflexivity.
  - reflexivity.
  - reflexivity.
  - reflexivity.
  - reflexivity.
  - unfold start. rewrite Hcalls. reflexivity.
Defined.

(** [findById(42)]: there is no product 42. *)
Lemma findById_product_lookup_fails_witness :
  (findById env manager (JNum 42) (start true true)).1 =
    Rejected (failure "NotFoundError")
  ∧ count_calls is_ratings_lookup
      (trace (findById env manager (JNum 42) (start true true)).2) = 0%nat.
Proof.
  edestruct (findById_product_lookup_fails env manager (JNum 42)
               (failure "NotFoundError") (shop true true) (shop true true) [])
    as (Hrun & Hcount).
  - reflexivity.
  - unfold start. split; [by rewrite Hrun | by rewrite Hcount].
Defined.

(** [findById(7)]: the keyboard, with its one rating. *)
Lemma findById_attaches_ratings_witness :
  ∃ result : JSObject,
    (findById env manager (JNum 7) (start true true)).1 = Resolved (JObj result)
    ∧ result !! "ratings" =
        Some (JArr [JObj (new_rating (JNum 1) (JNum 7) (JNum 4) (JStr "Solid keys"))])
    ∧ result !! "name" = Some (JStr "Keyboard").
Proof.
  edestruct (findById_attaches_ratings env manager (JNum 7) keyboard
               (JArr [JObj (new_rating (JNum 1) (JNum 7) (JNum 4) (JStr "Solid keys"))])
               (shop true true) (shop true true) (shop true true) [])
    as (result & Hrun & Hratings & Hrest).
  - reflexivity.
  - reflexivity.
  - exists result. unfold start. rewrite Hrun. split; [reflexivity|].
    split; [exact Hratings|].
    rewrite Hrest; [reflexivity | discriminate].
Defined.

(** [getAll()] with the database up, and with the database down. *)
Lemma getAll_passes_through_witness :
  (getAll env manager (start true true)).1 =
    Resolved (JArr [JObj mouse; JObj keyboard])
  ∧ (getAll env manager (start false true)).1 =
      Rejected (failure "PersistenceError").
Proof.
  split.
  - unfold start.
    rewrite (getAll_passes_through env manager
               (Resolved (JArr [JObj mouse; JObj keyboard]))
               (shop true true) (shop true true) []); reflexivity.
  - unfold start.
    rewrite (getAll_passes_through env manager
               (Rejected (failure "PersistenceError"))
               (shop false true) (shop false true) []); reflexivity.
Defined.

(** [{rating: 9}]: two fields are missing and the third is out of
    range; the error lists all three. *)
Lemma validate_collects_every_violation_witness :
  ∃ error : JSObject,
    validateAddReviewRequest schema (<["rating" := JNum 9]> ∅) (start true true) =
      (Rejected (JObj error), start true true)
    ∧ error !! "badRequest" = Some (JBool true)
    ∧ error !! "details" =
        Some (JArr [ Joi.detail "any.required" "product_id";
                     Joi.detail "number.max" "rating";
                     Joi.detail "any.required" "review" ]).
Proof.
  edestruct (validate_collects_every_violation (World := World) schema
               (<["rating" := JNum 9]> ∅) (start true true))
    as (error & Hrun & Hbad & Hdetails & _).
  - vm_compute. discriminate.
  - exists error. split; [exact Hrun|]. split; [exact Hbad|].
    rewrite Hdetails. vm_compute. reflexivity.
Defined.



End Runs.

(** ** Runs through the failing paths *)

Module PathRuns.
Import TestDouble.

(** [addRating] with the database down. *)
Lemma addRating_create_fails_witness :
  (addRating env schema manager (JNum 1) (JNum 5) (JStr "Great product")
     (start false true)).1 = Rejected (failure "PersistenceError")
  ∧ count_calls is_rating_findById
      (trace (addRating env schema manager (JNum 1) (JNum 5)
                (JStr "Great product") (start false true)).2) = 0%nat.
Proof.
  edestruct (addRating_create_fails env schema manager
               (JNum 1) (JNum 5) (JStr "Great product")
               (failure "PersistenceError") (shop false true) (shop false true) [])
    as (Hrun & Hfind & _).
  - vm_compute; reflexivity.
  - reflexivity.
  - unfold start. split; [by rewrite Hrun | by rewrite Hfind].
Defined.

(** [addRating] on a rating entity that loses what it creates: the
    re-fetch finds nothing and the queue stays empty. *)
Lemma addRating_refetch_fails_witness :
  (addRating Faulty.env_losing_writes schema manager (JNum 1) (JNum 5)
     (JStr "Great product") (start true true)).1 =
    Rejected (failure "NotFoundError")
  ∧ jobs (world (addRating Faulty.env_losing_writes schema manager (JNum 1)
                   (JNum 5) (JStr "Great product") (start true true)).2) = [].
Proof.
  edestruct (addRating_refetch_fails Faulty.env_losing_writes schema manager
               (JNum 1) (JNum 5) (JStr "Great product") (JNum 99)
               (failure "NotFoundError")
               (shop true true) (shop true true) (shop true true) [])
    as (Hrun & _).
  - vm_compute; reflexivity.
  - reflexivity.
  - reflexivity.
  - unfold start. rewrite Hrun. split; reflexivity.
Defined.

(** [findById(7)] when the ratings cannot be read. *)
Lemma findById_ratings_lookup_fails_witness :
  (findById Faulty.env_without_ratings manager (JNum 7) (start true true)).1 =
    Rejected (failure "PersistenceError").
Proof.
  unfold start.
  rewrite (findById_ratings_lookup_fails Faulty.env_without_ratings manager
             (JNum 7) keyboard (failure "PersistenceError")
             (shop true true) (shop true true) (shop true true) []);
    reflexivity.
Defined.

(** Publishing on a queue whose [create] throws. *)
Lemma publish_create_throws_witness :
  (publishToRealtimeQueue Faulty.env_with_throwing_queue
     (JStr "product-rating:added") (JNum 0) (start true true)).1 =
    Rejected (failure "QueueError")
  ∧ count_calls is_job_save
      (trace (publishToRealtimeQueue Faulty.env_with_throwing_queue
                (JStr "product-rating:added") (JNum 0) (start true true)).2) =
      0%nat.
Proof.
  edestruct (publish_create_throws Faulty.env_with_throwing_queue
               (JStr "product-rating:added") (JNum 0) (failure "QueueError")
               (shop true true) (shop true true) [])
    as (Hrun & Hsave).
  - reflexivity.
  - unfold start. split; [by rewrite Hrun | by rewrite Hsave].
Defined.

(** Publishing with the queue up, and with the queue down. *)
Lemma publish_ends_as_save_witness :
  (publishToRealtimeQueue env (JStr "product-rating:added") (JNum 0)
     (start true true)).1 = Resolved JUndefined
  ∧ (publishToRealtimeQueue env (JStr "product-rating:added") (JNum 0)
       (start true false)).1 = Rejected (failure "QueueError").
Proof.
  unfold start. split.
  - erewrite (publish_ends_as_save env (JStr "product-rating:added") (JNum 0)
                _ (Resolved _) (shop true true) (shop true true) _ []);
      reflexivity.
  - erewrite (publish_ends_as_save env (JStr "product-rating:added") (JNum 0)
                _ (Rejected _) (shop true false) (shop true false) _ []);
      reflexivity.
Defined.

(** The calls of [addRating] with the queue down. *)
Lemma addRating_calls_are_a_pipeline_prefix_witness :
  ∃ evs,
    trace (addRating env schema manager (JNum 1) (JNum 5)
             (JStr "Great product") (start true false)).2 = evs
    ∧ methods evs `prefix_of` addRating_pipeline.
Proof.
  destruct (addRating_calls_are_a_pipeline_prefix env schema manager
              (JNum 1) (JNum 5) (JStr "Great product") (start true false))
    as (evs & Htrace & Hprefix & _).
  exists evs. split; [exact Htrace | exact Hprefix].
Defined.

(** The calls of [findById(42)]. *)
Lemma findById_calls_are_a_pipeline_prefix_witness :
  ∃ evs,
    trace (findById env manager (JNum 42) (start true true)).2 = evs
    ∧ methods evs `prefix_of` findById_pipeline.
Proof.
  destruct (findById_calls_are_a_pipeline_prefix env manager (JNum 42)
              (start true true))
    as (evs & Htrace & Hprefix & _).
  exists evs. split; [exact Htrace | exact Hprefix].
Defined.

(** A manager built from the request [{user: 3}]. *)
Lemma manager_passes_its_request_witness :
  ∃ evs,
    trace (getAll env (new_ProductManager (JObj (<["user" := JNum 3]> ∅)))
             (start true true)).2 = evs
    ∧ Forall (fun ev => ∀ r, entity_request (call ev) = Some r →
                             r = JObj (<["user" := JNum 3]> ∅)) evs.
Proof.
  destruct (manager_passes_its_request env schema
              (JObj (<["user" := JNum 3]> ∅))
              (JNum 7) (JNum 1) (JNum 5) (JStr "Great product")
              (start true true))
    as ((evs & Htrace & Hreq) & _).
  exists evs. split; [exact Htrace | exact Hreq].
Defined.

(** The error for [{rating: 9}] keeps its name under the mark. *)
Lemma validate_marks_and_keeps_the_rest_witness :
  ∃ marked : JSObject,
    validateAddReviewRequest schema (<["rating" := JNum 9]> ∅) (start true true) =
      (Rejected (JObj marked), start true true)
    ∧ marked !! "badRequest" = Some (JBool true)
    ∧ marked !! "name" = Some (JStr "ValidationError").
Proof.
  edestruct (validate_marks_and_keeps_the_rest (World := World) schema
               (<["rating" := JNum 9]> ∅)
               (Joi.ValidationError
                  [ Joi.detail "any.required" "product_id";
                    Joi.detail "number.max" "rating";
                    Joi.detail "any.required" "review" ]
                  (<["rating" := JNum 9]> ∅))
               (start true true))
    as (marked & Hrun & Hbad & Hrest & _).
  - vm_compute; reflexivity.
  - exists marked. split; [exact Hrun|]. split; [exact Hbad|].
    rewrite Hrest; [reflexivity | discriminate].
Defined.

(** The same rating submitted twice is stored twice, as ratings 2 and 3. *)
Lemma addRating_twice_creates_twice_witness :
  ((_ <- addRating env schema manager (JNum 1) (JNum 5) (JStr "Great product") ;;
    addRating env schema manager (JNum 1) (JNum 5) (JStr "Great product"))%async
     (start true true)).1 =
    Resolved (JObj (new_rating (JNum 3) (JNum 1) (JNum 5) (JStr "Great product")))
  ∧ count_calls is_rating_create
      (trace ((_ <- addRating env schema manager (JNum 1) (JNum 5)
                      (JStr "Great product") ;;
               addRating env schema manager (JNum 1) (JNum 5)
                 (JStr "Great product"))%async (start true true)).2) = 2%nat.
Proof.
  edestruct (addRating_twice_creates_twice env schema manager
               (JNum 1) (JNum 5) (JStr "Great product") [] (shop true true))
    as (Hrun & _ & Hcreate & _).
  - vm_compute; reflexivity.
  - reflexivity.
  - reflexivity.
  - reflexivity.
  - reflexivity.
  - reflexivity.
  - reflexivity.
  - reflexivity.
  - reflexivity.
  - unfold start. split; [by rewrite Hrun | by rewrite Hcreate].
Defined.

End PathRuns.
